(** * maya_stubgen.utils

    A shallow embedding of [maya_stubgen/utils.py]: the helpers that start
    and stop the Maya standalone runtime, the memoised host version query,
    the version-tagged cache directory and the [timed] decorator.

    Python statements are read as computations in a state-and-exception
    monad over a [World]: the working directory as a tree, the clock, the
    root logger's handlers, the hidden state of the host, the globals of
    the module, the lines written through the module's logger and a ghost
    record of the calls that were made. *)

From Stdlib Require Import Ascii String ZArith.
From stdpp Require Import gmap strings list fin_maps.

Set Warnings "-register-all".
Open Scope string_scope.
Open Scope list_scope.

(** ** Exceptions and outcomes *)

(** The exception classes that the modelled code can meet.  [OtherError]
    stands for any exception raised by foreign code (the host, the GUI
    toolkit, a decorated function, the body of a [with] block). *)
Inductive exn : Type :=
  | ModuleNotFoundError
  | FileNotFoundError
  | NotADirectoryError
  | IsADirectoryError
  | FileExistsError
  | AttributeError
  | IndexError
  | OtherError (tag : string).

Inductive Outcome (A : Type) : Type :=
  | Return (a : A)
  | Raise (e : exn).
Arguments Return {A} a.
Arguments Raise {A} e.

(** ** Text *)

(** [str.isspace] on the code points below 256, which is what a [string]
    of 8-bit characters can hold. *)
Definition isspace (c : ascii) : bool :=
  let n := nat_of_ascii c in
  (Nat.leb 9 n && Nat.leb n 13) || (Nat.leb 28 n && Nat.leb n 32)
  || Nat.eqb n 133 || Nat.eqb n 160.

Fixpoint lstrip (s : string) : string :=
  match s with
  | EmptyString => EmptyString
  | String c s' => if isspace c then lstrip s' else s
  end.

Fixpoint rstrip (s : string) : string :=
  match s with
  | EmptyString => EmptyString
  | String c s' =>
      match rstrip s' with
      | EmptyString => if isspace c then EmptyString else String c EmptyString
      | r => String c r
      end
  end.

(** [str.strip()] with no argument. *)
Definition strip (s : string) : string := rstrip (lstrip s).

(** ** The file system below the resolved working directory *)

Inductive Node : Type :=
  | File (content : string)
  | Dir (entries : gmap string Node).

(** What following a relative path gives: the node, [ENOENT] or
    [ENOTDIR]. *)
Inductive Lookup : Type :=
  | Found (n : Node)
  | Missing
  | NotDir.

Fixpoint stat (n : Node) (p : list string) {struct p} : Lookup :=
  match p with
  | [] => Found n
  | name :: rest =>
      match n with
      | File _ => NotDir
      | Dir es =>
          match es !! name with
          | Some n' => stat n' rest
          | None => Missing
          end
      end
  end.

(** [Path.exists()]: false on [ENOENT] and on [ENOTDIR]. *)
Definition exists_ (root : Node) (p : list string) : bool :=
  match stat root p with
  | Found _ => true
  | _ => false
  end.

(** [Path.read_text()]. *)
Definition read_text_node (root : Node) (p : list string) : Outcome string :=
  match stat root p with
  | Found (File c) => Return c
  | Found (Dir _) => Raise IsADirectoryError
  | Missing => Raise FileNotFoundError
  | NotDir => Raise NotADirectoryError
  end.

(** The tree without the entry at [p], subtree included. *)
Fixpoint remove (n : Node) (p : list string) {struct p} : Node :=
  match p with
  | [] => n
  | name :: rest =>
      match n with
      | File _ => n
      | Dir es =>
          match rest with
          | [] => Dir (delete name es)
          | _ => Dir (alter (fun n' => remove n' rest) name es)
          end
      end
  end.

(** [shutil.rmtree(p)]: only a directory can be removed. *)
Definition rmtree_node (root : Node) (p : list string) : Outcome Node :=
  match stat root p with
  | Found (Dir _) => Return (remove root p)
  | Found (File _) => Raise NotADirectoryError
  | Missing => Raise FileNotFoundError
  | NotDir => Raise NotADirectoryError
  end.

(** [Path.mkdir(parents=True, exist_ok=True)]: missing components are
    created, existing directories are accepted, a regular file in the way
    is an error. *)
Fixpoint mkdir_node (n : Node) (p : list string) {struct p}
  : Outcome Node :=
  match p with
  | [] =>
      match n with
      | Dir _ => Return n
      | File _ => Raise FileExistsError
      end
  | name :: rest =>
      match n with
      | File _ => Raise NotADirectoryError
      | Dir es =>
          match mkdir_node (default (Dir ∅) (es !! name)) rest with
          | Return n' => Return (Dir (<[name := n']> es))
          | Raise e => Raise e
          end
      end
  end.

(** [Path.write_text(s)]: creates or truncates the file; the parent has
    to be an existing directory. *)
Fixpoint write_text_node (n : Node) (p : list string) (s : string)
  {struct p} : Outcome Node :=
  match p with
  | [] =>
      match n with
      | File _ => Return (File s)
      | Dir _ => Raise IsADirectoryError
      end
  | name :: rest =>
      match n with
      | File _ => Raise NotADirectoryError
      | Dir es =>
          match es !! name with
          | Some n' =>
              match write_text_node n' rest s with
              | Return n'' => Return (Dir (<[name := n'']> es))
              | Raise e => Raise e
              end
          | None =>
              match rest with
              | [] => Return (Dir (<[name := File s]> es))
              | _ => Raise FileNotFoundError
              end
          end
      end
  end.

(** ** The world *)

(** Everything outside the module: the tree below the resolved working
    directory, the clock read by [time.perf_counter], the handlers of the
    root logger and the state the host keeps for itself. *)
Record Env (H : Type) : Type := mkEnv {
  fs : Node;
  now : Z;
  root_handlers : list string;
  host_state : H
}.
Arguments mkEnv {H} _ _ _ _.
Arguments fs {H} _.
Arguments now {H} _.
Arguments root_handlers {H} _.
Arguments host_state {H} _.

(** The collaborators the module calls into: the GUI toolkit
    ([QCoreApplication.setAttribute], the [QApplication] constructor), the
    host's [maya.standalone] and [maya.cmds].  Each may raise; each may
    change the environment, except the version query, which only reads (it
    raises, for one, while the runtime has not been started). *)
Record Host (H : Type) : Type := mkHost {
  QCoreApplication_setAttribute : Env H -> Outcome unit * Env H;
  QApplication : Env H -> Outcome unit * Env H;
  standalone_initialize : Env H -> Outcome unit * Env H;
  standalone_uninitialize : Env H -> Outcome unit * Env H;
  cmds_loadPlugin : string -> Env H -> Outcome unit * Env H;
  cmds_about_majorVersion : Env H -> Outcome string
}.
Arguments QCoreApplication_setAttribute {H} _ _.
Arguments QApplication {H} _ _.
Arguments standalone_initialize {H} _ _.
Arguments standalone_uninitialize {H} _ _.
Arguments cmds_loadPlugin {H} _ _ _.
Arguments cmds_about_majorVersion {H} _ _.

Inductive Level : Type := INFO | WARNING | ERROR | SUCCESS.

Inductive LogArg : Type :=
  | AStr (s : string)
  | AElapsed (dt : Z).

Record LogRecord : Type := mkLog {
  level : Level;
  msg : string;
  args : list LogArg
}.

(** Ghost events: which functions were entered and when the host was
    asked for its version.  They are not data of the program; they let
    statements about what was run, and how often, be written down. *)
Inductive Event : Type :=
  | Call_initialize_maya
  | Call_uninitialize_maya
  | Call_about.

#[global] Instance Event_eq_dec : EqDecision Event.
Proof. solve_decision. Defined.

Record World (H : Type) : Type := mkWorld {
  env : Env H;
  _has_maya : bool;
  _maya_version : option string;
  log : list LogRecord;
  trace : list Event
}.
Arguments mkWorld {H} _ _ _ _ _.
Arguments env {H} _.
Arguments _has_maya {H} _.
Arguments _maya_version {H} _.
Arguments log {H} _.
Arguments trace {H} _.

Definition set_env {H} (e : Env H) (w : World H) : World H :=
  mkWorld e (_has_maya w) (_maya_version w) (log w) (trace w).

Definition set_fs {H} (n : Node) (w : World H) : World H :=
  set_env (mkEnv n (now (env w)) (root_handlers (env w)) (host_state (env w))) w.

Definition set_root_handlers {H} (hs : list string) (w : World H) : World H :=
  set_env (mkEnv (fs (env w)) (now (env w)) hs (host_state (env w))) w.

Definition set_maya_version {H} (v : option string) (w : World H) : World H :=
  mkWorld (env w) (_has_maya w) v (log w) (trace w).

Definition add_log {H} (r : LogRecord) (w : World H) : World H :=
  mkWorld (env w) (_has_maya w) (_maya_version w) (log w ++ [r]) (trace w).

Definition add_event {H} (ev : Event) (w : World H) : World H :=
  mkWorld (env w) (_has_maya w) (_maya_version w) (log w) (trace w ++ [ev]).

(** ** The monad of statements *)

Definition M (H A : Type) : Type := World H -> Outcome A * World H.

Definition ret {H A} (a : A) : M H A := fun w => (Return a, w).

Definition raise {H A} (e : exn) : M H A := fun w => (Raise e, w).

Definition bind {H A B} (m : M H A) (k : A -> M H B) : M H B :=
  fun w =>
    match m w with
    | (Return a, w') => k a w'
    | (Raise e, w') => (Raise e, w')
    end.

Declare Scope py_scope.
Delimit Scope py_scope with py.
Notation "x <- c1 ;; c2" := (bind c1 (fun x => c2))
  (at level 100, c1 at next level, right associativity) : py_scope.
Notation "c1 ;; c2" := (bind c1 (fun _ => c2))
  (at level 100, right associativity) : py_scope.
Open Scope py_scope.

(** [try: m  except BaseException: handler  else: orelse]. *)
Definition try_except_else {H A B} (m : M H A) (handler : exn -> M H B)
    (orelse : A -> M H B) : M H B :=
  fun w =>
    match m w with
    | (Return a, w') => orelse a w'
    | (Raise e, w') => handler e w'
    end.

(** [try: m  finally: fin]: [fin] runs on both paths; an exception of
    [fin] replaces the outcome of [m]. *)
Definition try_finally {H A} (m : M H A) (fin : M H unit) : M H A :=
  fun w =>
    match m w with
    | (o, w') =>
        match fin w' with
        | (Return _, w'') => (o, w'')
        | (Raise e, w'') => (Raise e, w'')
        end
    end.

(** [for x in xs: body x]. *)
Fixpoint for_each {H A} (xs : list A) (body : A -> M H unit) : M H unit :=
  match xs with
  | [] => ret tt
  | x :: xs' => body x ;; for_each xs' body
  end.

(** ** Generators and callables *)

(** A generator function with one [yield]: the statements before it,
    what the frame suspended at the [yield] does with an exception thrown
    into it, and the statements after it. *)
Record Generator (H : Type) : Type := mkGenerator {
  until_yield : M H unit;
  on_throw : exn -> M H unit;
  after_yield : M H unit
}.
Arguments mkGenerator {H} _ _ _.
Arguments until_yield {H} _.
Arguments on_throw {H} _ _.
Arguments after_yield {H} _.

(** A Python callable: calling it is a computation, and it may or may
    not carry a [__name__] (functions and classes do, a
    [functools.partial] object or an instance with [__call__] does
    not). *)
Record Callable (H Args T : Type) : Type := mkCallable {
  __name__ : option string;
  call : Args -> M H T
}.
Arguments mkCallable {H Args T} _ _.
Arguments __name__ {H Args T} _.
Arguments call {H Args T} _ _.

(** ** The module *)

Section Utils.
Context {H : Type} (host : Host H).

(** A call into a collaborator: it acts on the environment only. *)
Definition foreign (op : Env H -> Outcome unit * Env H) : M H unit :=
  fun w =>
    match op (env w) with
    | (o, e') => (o, set_env e' w)
    end.

Definition mark (ev : Event) : M H unit :=
  fun w => (Return tt, add_event ev w).

(** Modelled from the spec: the module [_logging], whose [getLogger]
    builds [logger], is not among the sources.  The spec describes a
    process-wide logger with the standard levels and a custom "success"
    level; a call to one of its methods is taken to emit one line, kept
    here with its level, format string and arguments. *)
Definition logger_log (lvl : Level) (fmt : string) (a : list LogArg)
  : M H unit :=
  fun w => (Return tt, add_log (mkLog lvl fmt a) w).

Definition logger_info := logger_log INFO.
Definition logger_warning := logger_log WARNING.
Definition logger_error := logger_log ERROR.
Definition logger_success := logger_log SUCCESS.

(** [time.perf_counter()]. *)
Definition perf_counter : M H Z :=
  fun w => (Return (now (env w)), w).

(** [logging.getLogger().handlers.pop()]: the last handler is dropped;
    popping from an empty list raises [IndexError]. *)
Definition pop_root_handler : M H unit :=
  fun w =>
    match root_handlers (env w) with
    | [] => (Raise IndexError, w)
    | hs => (Return tt, set_root_handlers (removelast hs) w)
    end.

Definition path_exists (p : list string) : M H bool :=
  fun w => (Return (exists_ (fs (env w)) p), w).

Definition read_text (p : list string) : M H string :=
  fun w => (read_text_node (fs (env w)) p, w).

(** [shutil.rmtree(p, ignore_errors=...)]. *)
Definition rmtree (p : list string) (ignore_errors : bool) : M H unit :=
  fun w =>
    match rmtree_node (fs (env w)) p with
    | Return n => (Return tt, set_fs n w)
    | Raise e => if ignore_errors then (Return tt, w) else (Raise e, w)
    end.

Definition mkdir (p : list string) : M H unit :=
  fun w =>
    match mkdir_node (fs (env w)) p with
    | Return n => (Return tt, set_fs n w)
    | Raise e => (Raise e, w)
    end.

Definition write_text (p : list string) (s : string) : M H unit :=
  fun w =>
    match write_text_node (fs (env w)) p s with
    | Return n => (Return tt, set_fs n w)
    | Raise e => (Raise e, w)
    end.

(** List of plugins that contain commands that should have generated
    stubs. *)
Definition PLUGINS : list string :=
  ["invertShape.mll"; "poseInterpolator.mll"].

(** [Path() / "temp" / "maya_app_dir"], relative to the working
    directory. *)
Definition temp_maya_app_dir : list string := ["temp"; "maya_app_dir"].

(** The [import maya.standalone] and [import maya.cmds] of the two
    lifecycle functions sit inside their [try] blocks, so a failing
    import is handled like a failing call and is part of the
    collaborator's outcome. *)
Definition initialize_maya : M H unit :=
  mark Call_initialize_maya ;;
  fun w =>
    if negb (_has_maya w) then ret tt w
    else
      (logger_info "Initializing Maya Standalone" [] ;;
       foreign (QCoreApplication_setAttribute host) ;;
       foreign (QApplication host) ;;
       try_except_else
         (foreign (standalone_initialize host))
         (fun _ => logger_error "Failed to initialize Maya Standalone" [])
         (fun _ =>
            for_each PLUGINS
              (fun plugin =>
                 try_except_else
                   (foreign (cmds_loadPlugin host plugin))
                   (fun _ => logger_warning "Couldn't load %s" [AStr plugin])
                   (fun _ => ret tt)) ;;
            pop_root_handler ;;
            logger_success "Maya Standalone Initialized" [])) w.

Definition uninitialize_maya : M H unit :=
  mark Call_uninitialize_maya ;;
  fun w =>
    if negb (_has_maya w) then ret tt w
    else
      (logger_info "Uninitializing Maya Standalone" [] ;;
       try_finally
         (try_except_else
            (foreign (standalone_uninitialize host))
            (fun _ => logger_error "Failed to uninitialize Maya Standalone" [])
            (fun _ => logger_success "Maya Standalone Uninitialized" []))
         (rmtree temp_maya_app_dir true)) w.

(** The [yield] of [maya_standalone] is not inside a [try], so an
    exception thrown in at the [yield] leaves the generator at once. *)
Definition maya_standalone : Generator H :=
  {| until_yield := initialize_maya;
     on_throw := fun e => raise e;
     after_yield := uninitialize_maya |}.

(** [with contextmanager(g)(): body].  [__enter__] runs the generator
    up to its [yield].  When the body ends normally [__exit__] resumes the
    generator, which runs to its end.  When the body raises, [__exit__]
    throws the exception in at the [yield]: if the generator lets it out
    (or raises another one) the [with] statement raises it, if the
    generator ends normally the exception is suppressed. *)
Definition with_contextmanager (g : Generator H) (body : M H unit)
  : M H unit :=
  until_yield g ;;
  try_except_else body (fun e => on_throw g e) (fun _ => after_yield g).

(** [import maya.cmds] outside any [try]: it fails in a process where
    the [maya] package cannot be imported, which is what [_has_maya]
    recorded when the module was loaded. *)
Definition import_maya_cmds : M H unit :=
  fun w =>
    if _has_maya w then (Return tt, w) else (Raise ModuleNotFoundError, w).

Definition about_majorVersion : M H string :=
  fun w => (cmds_about_majorVersion host (env w), add_event Call_about w).

Definition maya_version : M H string :=
  import_maya_cmds ;;
  fun w =>
    match _maya_version w with
    | None =>
        (v <- about_majorVersion ;;
         (fun w' => (Return tt, set_maya_version (Some v) w')) ;;
         ret v) w
    | Some v => ret v w
    end.

(** [Path().resolve() / ".cache"]; paths are relative to the resolved
    working directory. *)
Definition cache_dir : list string := [".cache"].

(** Deletes the existing cache directory if it was generated using
    another version of Maya.  The three statements that end the function
    are shared by the two branches that do not return. *)
Definition remove_outdated_cache : M H unit :=
  version <- maya_version ;;
  let cache := cache_dir in
  cache_exists <- path_exists cache ;;
  if negb cache_exists then
    (* we have no cache, nothing to do *)
    ret tt
  else
    let maya_version_file := cache ++ [".maya_version"] in
    let wipe :=
      rmtree cache false ;;
      mkdir cache ;;
      write_text maya_version_file version in
    marker_exists <- path_exists maya_version_file ;;
    if negb marker_exists then
      text <- read_text maya_version_file ;;
      let cache_version := strip text in
      if String.eqb cache_version version then
        (* cache is from current maya version, nothing to do *)
        ret tt
      else
        logger_warning
          "Running against Maya %s, but cache was generated using Maya %s; removing existing cache"
          [AStr version; AStr cache_version] ;;
        wipe
    else
      logger_warning
        "Cache from unknown Maya version found; removing existing cache" [] ;;
      wipe.

(** [func.__name__]. *)
Definition getattr_name {Args T} (func : Callable H Args T) : M H string :=
  match __name__ func with
  | Some n => ret n
  | None => raise AttributeError
  end.

Definition wrap_func {Args T} (func : Callable H Args T) (a : Args)
  : M H T :=
  t1 <- perf_counter ;;
  result <- call func a ;;
  t2 <- perf_counter ;;
  name <- getattr_name func ;;
  logger_info "Function %s executed in %ss" [AStr name; AElapsed (t2 - t1)%Z] ;;
  ret result.

Definition timed {Args T} (func : Callable H Args T) : Callable H Args T :=
  {| __name__ := Some "wrap_func"; call := wrap_func func |}.

End Utils.

(** Computations that leave the ghost trace alone. *)
Definition keeps_trace {H A} (m : M H A) : Prop :=
  forall w, trace (snd (m w)) = trace w.

(** ** Concrete hosts and worlds *)

(** A host whose calls all succeed and leave the environment alone; it
    reports Maya 2023. *)
Definition calm_host : Host unit :=
  {| QCoreApplication_setAttribute := fun e => (Return tt, e);
     QApplication := fun e => (Return tt, e);
     standalone_initialize := fun e => (Return tt, e);
     standalone_uninitialize := fun e => (Return tt, e);
     cmds_loadPlugin := fun _ e => (Return tt, e);
     cmds_about_majorVersion := fun _ => Return "2023" |}.

(** The same host, except that shutting the runtime down fails. *)
Definition stubborn_host : Host unit :=
  {| QCoreApplication_setAttribute := fun e => (Return tt, e);
     QApplication := fun e => (Return tt, e);
     standalone_initialize := fun e => (Return tt, e);
     standalone_uninitialize := fun e => (Raise (OtherError "RuntimeError"), e);
     cmds_loadPlugin := fun _ e => (Return tt, e);
     cmds_about_majorVersion := fun _ => Return "2023" |}.

Definition app_dir : Node := Dir {[ "prefs" := File "colour" ]}.

(** A working directory with the host's application directory and a
    cache holding one stub file and the given marker, if any. *)
Definition tree_with_cache (marker : option string) : Node :=
  Dir {[ "temp" := Dir {[ "maya_app_dir" := app_dir ]};
         ".cache" :=
           Dir (match marker with
                | Some v => {[ ".maya_version" := File v;
                               "cmds.pyi" := File "def ls(): ..." ]}
                | None => {[ "cmds.pyi" := File "def ls(): ..." ]}
                end) ]}.

Definition tree_without_cache : Node :=
  Dir {[ "temp" := Dir {[ "maya_app_dir" := app_dir ]} ]}.

(** A fresh process: nothing memoised, nothing logged, one handler on
    the root logger. *)
Definition fresh (tree : Node) (has_maya : bool) : World unit :=
  mkWorld (mkEnv tree 0 ["maya"] tt) has_maya None [] [].

(** A body of a [with] block that fails. *)
Definition failing_body : M unit unit := raise (OtherError "ValueError").

(** A [functools.partial]-like callable: it can be called and has no
    [__name__]. *)
Definition nameless : Callable unit unit nat :=
  {| __name__ := None; call := fun _ => ret 7 |}.

(** A function [def seven(): return 7]. *)
Definition seven : Callable unit unit nat :=
  {| __name__ := Some "seven"; call := fun _ => ret 7 |}.

(** ** Log lines and further concrete processes *)

(** The line [initialize_maya] logs for a plugin whose loading ended with
    [o]: none when it loaded, a warning when it did not. *)
Definition plugin_warning (plugin : string) (o : Outcome unit)
  : list LogRecord :=
  match o with
  | Return _ => []
  | Raise _ => [mkLog WARNING "Couldn't load %s" [AStr plugin]]
  end.

(** The line [remove_outdated_cache] logs before wiping a cache whose
    marker exists. *)
Definition unknown_version_warning : LogRecord :=
  mkLog WARNING
    "Cache from unknown Maya version found; removing existing cache" [].

(** The line of [timed]. *)
Definition timing_line (name : string) (dt : Z) : LogRecord :=
  mkLog INFO "Function %s executed in %ss" [AStr name; AElapsed dt].

(** A host whose runtime does not start. *)
Definition unstartable_host : Host unit :=
  {| QCoreApplication_setAttribute := fun e => (Return tt, e);
     QApplication := fun e => (Return tt, e);
     standalone_initialize := fun e => (Raise (OtherError "RuntimeError"), e);
     standalone_uninitialize := fun e => (Return tt, e);
     cmds_loadPlugin := fun _ e => (Return tt, e);
     cmds_about_majorVersion := fun _ => Return "2023" |}.

(** A host where the application object cannot be built. *)
Definition headless_host : Host unit :=
  {| QCoreApplication_setAttribute := fun e => (Return tt, e);
     QApplication := fun e => (Raise (OtherError "RuntimeError"), e);
     standalone_initialize := fun e => (Return tt, e);
     standalone_uninitialize := fun e => (Return tt, e);
     cmds_loadPlugin := fun _ e => (Return tt, e);
     cmds_about_majorVersion := fun _ => Return "2023" |}.

(** A host that lacks the second plugin. *)
Definition picky_host : Host unit :=
  {| QCoreApplication_setAttribute := fun e => (Return tt, e);
     QApplication := fun e => (Return tt, e);
     standalone_initialize := fun e => (Return tt, e);
     standalone_uninitialize := fun e => (Return tt, e);
     cmds_loadPlugin := fun plugin e =>
       if String.eqb plugin "poseInterpolator.mll"
       then (Raise (OtherError "RuntimeError"), e)
       else (Return tt, e);
     cmds_about_majorVersion := fun _ => Return "2023" |}.

(** A host that can be imported and does not answer the version query,
    as when the runtime has not been started. *)
Definition mute_host : Host unit :=
  {| QCoreApplication_setAttribute := fun e => (Return tt, e);
     QApplication := fun e => (Return tt, e);
     standalone_initialize := fun e => (Return tt, e);
     standalone_uninitialize := fun e => (Return tt, e);
     cmds_loadPlugin := fun _ e => (Return tt, e);
     cmds_about_majorVersion := fun _ => Raise AttributeError |}.

(** A fresh process whose root logger has no handler. *)
Definition handlerless (tree : Node) : World unit :=
  mkWorld (mkEnv tree 0 [] tt) true None [] [].

(** A working directory where [.cache] is a regular file. *)
Definition tree_with_cache_file : Node :=
  Dir {[ ".cache" := File "not a directory" ]}.

(** A host that reports as its version whatever its own state says, so
    that the version can change while the process runs. *)
Definition reporting_host : Host string :=
  {| QCoreApplication_setAttribute := fun e => (Return tt, e);
     QApplication := fun e => (Return tt, e);
     standalone_initialize := fun e => (Return tt, e);
     standalone_uninitialize := fun e => (Return tt, e);
     cmds_loadPlugin := fun _ e => (Return tt, e);
     cmds_about_majorVersion := fun e => Return (host_state e) |}.

(** A fresh process on a host in state [version]. *)
Definition fresh_on (version : string) (tree : Node) : World string :=
  mkWorld (mkEnv tree 0 ["maya"] version) true None [] [].

(** A body of a [with] block that writes a stub file into the working
    directory. *)
Definition writing_body : M unit unit :=
  fun w =>
    match write_text_node (fs (env w)) ["cmds.pyi"] "def ls(): ..." with
    | Return n => (Return tt, set_fs n w)
    | Raise e => (Raise e, w)
    end.

(** * Properties *)

(** ** The file system *)

Lemma stat_child (es : gmap string Node) (name : string) :
  stat (Dir es) [name] =
  match es !! name with Some n => Found n | None => Missing end.
Proof. simpl. destruct (es !! name); reflexivity. Qed.

Lemma stat_grandchild (es : gmap string Node) (a b : string) :
  stat (Dir es) [a; b] =
  match es !! a with
  | Some (Dir d) => match d !! b with Some n => Found n | None => Missing end
  | Some (File _) => NotDir
  | None => Missing
  end.
Proof.
  simpl. destruct (es !! a) as [[c|d]|]; reflexivity.
Qed.

(** A path that leads somewhere starts at a directory. *)
Lemma stat_found_cons (n : Node) (name : string) (rest : list string)
    (m : Node) :
  stat n (name :: rest) = Found m ->
  exists es n', n = Dir es /\ es !! name = Some n' /\ stat n' rest = Found m.
Proof.
  destruct n as [c|es]; simpl; [discriminate|].
  destruct (es !! name) as [n'|] eqn:E; [|discriminate].
  intros Hs. exists es, n'. auto.
Qed.

(** Removing an entry twice is removing it once. *)
Lemma remove_idem (p : list string) (n : Node) :
  remove (remove n p) p = remove n p.
Proof.
  revert n. induction p as [|name rest IH]; intros n; [reflexivity|].
  destruct n as [c|es]; [reflexivity|].
  destruct rest as [|name' rest'].
  - simpl. f_equal. apply map_eq. intros k.
    destruct (decide (name = k)) as [->|Hne].
    + rewrite !lookup_delete_eq. reflexivity.
    + rewrite !lookup_delete_ne by assumption. reflexivity.
  - cbn [remove]. f_equal. apply map_eq. intros k.
    destruct (decide (name = k)) as [->|Hne].
    + rewrite !lookup_alter_eq. destruct (es !! k) as [n'|]; simpl; [|reflexivity].
      f_equal. apply IH.
    + rewrite !lookup_alter_ne by assumption. reflexivity.
Qed.

(** After a directory has been removed its path leads nowhere. *)
Lemma stat_remove_dir (p : list string) (n : Node) (d : gmap string Node) :
  p <> [] -> stat n p = Found (Dir d) -> stat (remove n p) p = Missing.
Proof.
  revert n. induction p as [|name rest IH]; intros n Hp Hs; [congruence|].
  destruct (stat_found_cons _ _ _ _ Hs) as (es & n' & -> & Hes & Hrest).
  destruct rest as [|name' rest'].
  - simpl. rewrite lookup_delete_eq. reflexivity.
  - cbn [remove stat]. rewrite lookup_alter_eq, Hes. simpl.
    apply IH; [discriminate | exact Hrest].
Qed.

Lemma rmtree_node_child (es d : gmap string Node) (name : string) :
  es !! name = Some (Dir d) ->
  rmtree_node (Dir es) [name] = Return (Dir (delete name es)).
Proof.
  intros Hes. unfold rmtree_node. rewrite stat_child, Hes. reflexivity.
Qed.

Lemma mkdir_node_child_fresh (es : gmap string Node) (name : string) :
  es !! name = None ->
  mkdir_node (Dir es) [name] = Return (Dir (<[name := Dir ∅]> es)).
Proof. intros Hes. cbn [mkdir_node]. rewrite Hes. reflexivity. Qed.

Lemma write_text_node_grandchild_fresh (es d : gmap string Node)
    (a b s : string) :
  es !! a = Some (Dir d) -> d !! b = None ->
  write_text_node (Dir es) [a; b] s =
  Return (Dir (<[a := Dir (<[b := File s]> d)]> es)).
Proof.
  intros Hes Hd. cbn [write_text_node]. rewrite Hes, Hd. reflexivity.
Qed.

(** Wiping a cache directory [name] of the tree [Dir es]: the three
    file-system steps that end [remove_outdated_cache]. *)
Lemma wipe_steps (es d : gmap string Node) (name marker version : string) :
  es !! name = Some (Dir d) ->
  exists n1 n2,
    rmtree_node (Dir es) [name] = Return n1 /\
    mkdir_node n1 [name] = Return n2 /\
    write_text_node n2 [name; marker] version =
      Return (Dir (<[name := Dir {[ marker := File version ]}]> es)).
Proof.
  intros Hes.
  exists (Dir (delete name es)), (Dir (<[name := Dir ∅]> (delete name es))).
  split; [apply (rmtree_node_child _ d), Hes|].
  split; [apply mkdir_node_child_fresh, lookup_delete_eq|].
  rewrite (write_text_node_grandchild_fresh _ ∅)
    by (apply lookup_insert_eq || apply lookup_empty).
  rewrite insert_insert_eq, insert_delete_eq, insert_empty. reflexivity.
Qed.

(** ** The version query *)

Section Properties.
Context {H : Type} (host : Host H).

(** What one call of [maya_version] does, by cases on the process.  A
    query that raises is recorded and memoises nothing. *)
Lemma maya_version_cases (w : World H) :
  maya_version host w =
  if _has_maya w then
    match _maya_version w with
    | Some v => (Return v, w)
    | None =>
        match cmds_about_majorVersion host (env w) with
        | Return v =>
            (Return v, set_maya_version (Some v) (add_event Call_about w))
        | Raise e => (Raise e, add_event Call_about w)
        end
    end
  else (Raise ModuleNotFoundError, w).
Proof.
  unfold maya_version, bind, import_maya_cmds, about_majorVersion.
  destruct (_has_maya w); [|reflexivity].
  destruct (_maya_version w); [reflexivity|].
  destruct (cmds_about_majorVersion host (env w)); reflexivity.
Qed.

Lemma maya_version_env (w : World H) :
  env (snd (maya_version host w)) = env w.
Proof.
  rewrite maya_version_cases.
  destruct (_has_maya w); [|reflexivity].
  destruct (_maya_version w); [reflexivity|].
  destruct (cmds_about_majorVersion host (env w)); reflexivity.
Qed.

Lemma maya_version_log (w : World H) :
  log (snd (maya_version host w)) = log w.
Proof.
  rewrite maya_version_cases.
  destruct (_has_maya w); [|reflexivity].
  destruct (_maya_version w); [reflexivity|].
  destruct (cmds_about_majorVersion host (env w)); reflexivity.
Qed.

(** Once a version is memoised a call returns it and touches nothing,
    whatever the host would answer now. *)
Lemma maya_version_memo (w : World H) (v : string) :
  _has_maya w = true -> _maya_version w = Some v ->
  maya_version host w = (Return v, w).
Proof. intros Hm Hv. rewrite maya_version_cases, Hm, Hv. reflexivity. Qed.

(** What a returning version query leaves behind. *)
Lemma maya_version_returned (w w1 : World H) (v : string) :
  maya_version host w = (Return v, w1) ->
  _has_maya w = true /\ _has_maya w1 = true /\ _maya_version w1 = Some v /\
  env w1 = env w /\ log w1 = log w.
Proof.
  rewrite maya_version_cases.
  destruct (_has_maya w) eqn:Hm; [|discriminate].
  destruct (_maya_version w) as [v0|] eqn:Hv.
  - intros Heq. injection Heq as <- <-. auto.
  - destruct (cmds_about_majorVersion host (env w)) as [v0|e];
      [|discriminate].
    intros Heq. injection Heq as <- <-. cbn. auto.
Qed.

(** C6, as the code has it: a call that returns [v] leaves [v] memoised.
    Either [v] was memoised already and the call asked nothing and changed
    nothing, or nothing was memoised, the host was asked once and answered
    [v].  From then on the host is not asked again: the next call, and any
    number of calls after it, return [v] and leave the process exactly as
    it is.  Over the two calls the trace gains at most one query. *)
Theorem C6_maya_version_memoises_what_it_returns (w w1 : World H)
    (v : string) (n : nat) :
  maya_version host w = (Return v, w1) ->
  _maya_version w1 = Some v /\
  ((_maya_version w = Some v /\ w1 = w) \/
   (_maya_version w = None /\
    cmds_about_majorVersion host (env w) = Return v /\
    w1 = set_maya_version (Some v) (add_event Call_about w))) /\
  maya_version host w1 = (Return v, w1) /\
  Nat.iter n (fun w' => snd (maya_version host w')) w1 = w1 /\
  count_occ Event_eq_dec (trace (snd (maya_version host w1))) Call_about
    <= S (count_occ Event_eq_dec (trace w) Call_about).
Proof.
  intros Hmv.
  destruct (maya_version_returned w w1 v Hmv) as (Hm & Hm1 & Hmemo & _ & _).
  assert (Hagain : maya_version host w1 = (Return v, w1))
    by (apply maya_version_memo; assumption).
  assert (Hhow :
    (_maya_version w = Some v /\ w1 = w) \/
    (_maya_version w = None /\
     cmds_about_majorVersion host (env w) = Return v /\
     w1 = set_maya_version (Some v) (add_event Call_about w))).
  { rewrite maya_version_cases, Hm in Hmv.
    destruct (_maya_version w) as [v0|].
    - injection Hmv as <- <-. left. auto.
    - destruct (cmds_about_majorVersion host (env w)) as [v0|e];
        [|discriminate].
      injection Hmv as <- <-. right. auto. }
  split; [exact Hmemo|]. split; [exact Hhow|]. split; [exact Hagain|].
  split.
  - induction n as [|n IH]; [reflexivity|].
    rewrite Nat.iter_succ, IH, Hagain. reflexivity.
  - rewrite Hagain. cbn [snd].
    destruct Hhow as [[_ ->] | (_ & _ & ->)].
    + lia.
    + cbn [trace set_maya_version add_event].
      rewrite count_occ_app. cbn. lia.
Qed.

(** ** The cache *)

Lemma maya_version_env_eq (w w1 : World H) (o : Outcome string) :
  maya_version host w = (o, w1) -> env w1 = env w.
Proof. intros Hv. rewrite <- (maya_version_env w), Hv. reflexivity. Qed.

(** The function starts with the version query and goes on in the
    process the query left. *)
Lemma remove_outdated_cache_raises_early (w w1 : World H) (e : exn) :
  maya_version host w = (Raise e, w1) ->
  remove_outdated_cache host w = (Raise e, w1).
Proof.
  intros Hv. unfold remove_outdated_cache, bind. rewrite Hv. reflexivity.
Qed.

(** The call that finds no cache returns in the process the version
    query left. *)
Lemma remove_outdated_cache_no_cache (w w1 : World H) (v : string) :
  maya_version host w = (Return v, w1) ->
  exists_ (fs (env w)) cache_dir = false ->
  remove_outdated_cache host w = (Return tt, w1).
Proof.
  intros Hmv Hno. unfold remove_outdated_cache, bind, path_exists.
  rewrite Hmv, (maya_version_env_eq _ _ _ Hmv), Hno. reflexivity.
Qed.

(** C7: when [.cache] does not exist the call leaves the file system as
    it was, so it creates no directory; and when the version query it
    starts with returns, the call returns normally, in the process the
    query left. *)
Theorem C7_no_cache_no_mutation (w : World H) :
  exists_ (fs (env w)) cache_dir = false ->
  fs (env (snd (remove_outdated_cache host w))) = fs (env w) /\
  exists_ (fs (env (snd (remove_outdated_cache host w)))) cache_dir = false /\
  (forall v w1,
     maya_version host w = (Return v, w1) ->
     remove_outdated_cache host w = (Return tt, w1)).
Proof.
  intros Hno.
  assert (Hfs : fs (env (snd (remove_outdated_cache host w))) = fs (env w)).
  { destruct (maya_version host w) as [[v|e] w1] eqn:Hv.
    - rewrite (remove_outdated_cache_no_cache w w1 v Hv Hno). cbn [snd].
      rewrite (maya_version_env_eq _ _ _ Hv). reflexivity.
    - rewrite (remove_outdated_cache_raises_early _ _ _ Hv). cbn [snd].
      rewrite (maya_version_env_eq _ _ _ Hv). reflexivity. }
  split; [exact Hfs|]. split; [rewrite Hfs; exact Hno|].
  intros v w1 Hmv. apply (remove_outdated_cache_no_cache w w1 v Hmv Hno).
Qed.

(** C10: when [.cache] is a directory without [.maya_version], and the
    version query the call starts with returns, the call raises
    [FileNotFoundError] from reading the marker, in the process the query
    left; the file system and the log are as before: nothing was wiped and
    no marker was written. *)
Theorem C10_unmarked_cache_raises (w w1 : World H) (v : string)
    (d : gmap string Node) :
  maya_version host w = (Return v, w1) ->
  stat (fs (env w)) cache_dir = Found (Dir d) ->
  d !! ".maya_version" = None ->
  remove_outdated_cache host w = (Raise FileNotFoundError, w1) /\
  fs (env (snd (remove_outdated_cache host w))) = fs (env w) /\
  log (snd (remove_outdated_cache host w)) = log w.
Proof.
  intros Hmv Hc Hd.
  pose proof (maya_version_env_eq _ _ _ Hmv) as Henv.
  pose proof (maya_version_log w) as Hlog. rewrite Hmv in Hlog. cbn in Hlog.
  destruct (stat_found_cons _ _ _ _ Hc) as (es & n' & Hfs & Hes & Hn').
  cbn in Hn'. injection Hn' as ->.
  assert (Hmarker : stat (fs (env w)) (cache_dir ++ [".maya_version"]) = Missing).
  { rewrite Hfs. unfold cache_dir. cbn [app].
    rewrite stat_grandchild, Hes, Hd. reflexivity. }
  assert (Hrun : remove_outdated_cache host w = (Raise FileNotFoundError, w1)).
  { unfold remove_outdated_cache, bind, path_exists, read_text, exists_,
      read_text_node.
    rewrite Hmv, Henv, Hc. cbn [negb].
    rewrite Henv, Hmarker. cbn [negb].
    rewrite Henv, Hmarker. reflexivity. }
  rewrite Hrun. cbn [snd]. rewrite Henv. auto.
Qed.

(** A cache directory that holds anything at all under [.maya_version]
    is wiped, whatever the marker says: the branch taken when the marker
    exists never reads it. *)
Lemma marked_cache_is_wiped (w w1 : World H) (version : string)
    (d : gmap string Node) (m : Node) :
  maya_version host w = (Return version, w1) ->
  stat (fs (env w)) cache_dir = Found (Dir d) ->
  d !! ".maya_version" = Some m ->
  exists es,
    fs (env w) = Dir es /\
    remove_outdated_cache host w =
      (Return tt,
       set_fs (Dir (<[".cache" := Dir {[ ".maya_version" := File version ]}]> es))
         (add_log
            (mkLog WARNING
               "Cache from unknown Maya version found; removing existing cache"
               [])
            w1)).
Proof.
  intros Hmv Hc Hd.
  pose proof (maya_version_env_eq _ _ _ Hmv) as Henv.
  destruct (stat_found_cons _ _ _ _ Hc) as (es & n' & Hfs & Hes & Hn').
  cbn in Hn'. injection Hn' as ->.
  exists es. split; [exact Hfs|].
  assert (Hmarker : stat (fs (env w)) (cache_dir ++ [".maya_version"]) = Found m).
  { rewrite Hfs. unfold cache_dir. cbn [app].
    rewrite stat_grandchild, Hes, Hd. reflexivity. }
  destruct (wipe_steps es d ".cache" ".maya_version" version Hes)
    as (n1 & n2 & Hrm & Hmk & Hwr).
  unfold remove_outdated_cache, bind, path_exists, exists_.
  rewrite Hmv, Henv, Hc. cbn [negb].
  rewrite Henv, Hmarker. cbn [negb].
  unfold logger_warning, logger_log, rmtree, mkdir, write_text.
  unfold cache_dir. cbn [add_log env app].
  rewrite Henv, Hfs, Hrm. cbn [env set_fs set_env fs].
  rewrite Hmk. cbn [env set_fs set_env fs].
  rewrite Hwr. reflexivity.
Qed.

(** C1: when [.cache] is a directory whose [.maya_version] file, once
    stripped, differs from the version [maya_version] returns, the call
    returns normally and leaves a cache directory that holds the marker
    and nothing else, the marker holding the current version; the rest of
    the working directory is as before. *)
Theorem C1_outdated_cache_is_wiped (w w1 : World H) (version text : string)
    (d : gmap string Node) :
  maya_version host w = (Return version, w1) ->
  stat (fs (env w)) cache_dir = Found (Dir d) ->
  d !! ".maya_version" = Some (File text) ->
  strip text <> version ->
  exists w',
    remove_outdated_cache host w = (Return tt, w') /\
    stat (fs (env w')) cache_dir
      = Found (Dir {[ ".maya_version" := File version ]}) /\
    read_text_node (fs (env w')) (cache_dir ++ [".maya_version"])
      = Return version /\
    remove (fs (env w')) cache_dir = remove (fs (env w)) cache_dir.
Proof.
  intros Hmv Hc Hd _.
  destruct (marked_cache_is_wiped w w1 version d (File text) Hmv Hc Hd)
    as (es & Hfs & Hrun).
  eexists. split; [exact Hrun|].
  rewrite Hfs. unfold cache_dir, read_text_node. cbn [set_fs set_env env fs app].
  rewrite stat_child, stat_grandchild, lookup_insert_eq, lookup_singleton_eq.
  split; [reflexivity|]. split; [reflexivity|].
  cbn [remove]. rewrite delete_insert_eq. reflexivity.
Qed.

(** ** The host runtime *)

(** C8: in a process where [maya] could not be imported both lifecycle
    functions return at once: nothing is logged, the environment and the
    module's globals are untouched, no exception is raised.  Only the
    ghost trace records the call. *)
Theorem C8_absent_host_is_noop (w : World H) :
  _has_maya w = false ->
  initialize_maya host w = (Return tt, add_event Call_initialize_maya w) /\
  uninitialize_maya host w = (Return tt, add_event Call_uninitialize_maya w).
Proof.
  intros Hm. unfold initialize_maya, uninitialize_maya, bind, mark.
  cbn [add_event _has_maya]. rewrite Hm. split; reflexivity.
Qed.

Lemma keeps_trace_ret {A} (a : A) : keeps_trace (@ret H A a).
Proof. intros w. reflexivity. Qed.

Lemma keeps_trace_bind {A B} (m : M H A) (k : A -> M H B) :
  keeps_trace m -> (forall a, keeps_trace (k a)) -> keeps_trace (bind m k).
Proof.
  intros Hm Hk w. unfold bind. specialize (Hm w).
  destruct (m w) as [[a|e] w']; cbn in *; [|exact Hm].
  rewrite Hk. exact Hm.
Qed.

Lemma keeps_trace_try_except_else {A B} (m : M H A) (h : exn -> M H B)
    (k : A -> M H B) :
  keeps_trace m -> (forall e, keeps_trace (h e)) ->
  (forall a, keeps_trace (k a)) -> keeps_trace (try_except_else m h k).
Proof.
  intros Hm Hh Hk w. unfold try_except_else. specialize (Hm w).
  destruct (m w) as [[a|e] w']; cbn in *.
  - rewrite Hk. exact Hm.
  - rewrite Hh. exact Hm.
Qed.

Lemma keeps_trace_try_finally {A} (m : M H A) (fin : M H unit) :
  keeps_trace m -> keeps_trace fin -> keeps_trace (try_finally m fin).
Proof.
  intros Hm Hf w. unfold try_finally. specialize (Hm w).
  destruct (m w) as [o w']. specialize (Hf w').
  destruct (fin w') as [[u|e] w'']; cbn in *; congruence.
Qed.

Lemma keeps_trace_for_each {A} (xs : list A) (body : A -> M H unit) :
  (forall x, keeps_trace (body x)) -> keeps_trace (for_each xs body).
Proof.
  intros Hb. induction xs as [|x xs IH]; cbn [for_each].
  - apply keeps_trace_ret.
  - apply keeps_trace_bind; [apply Hb | intros _; exact IH].
Qed.

Lemma keeps_trace_foreign (op : Env H -> Outcome unit * Env H) :
  keeps_trace (foreign op).
Proof. intros w. unfold foreign. destruct (op (env w)). reflexivity. Qed.

Lemma keeps_trace_logger_log (lvl : Level) (fmt : string) (a : list LogArg) :
  keeps_trace (@logger_log H lvl fmt a).
Proof. intros w. reflexivity. Qed.

Lemma keeps_trace_pop_root_handler : keeps_trace (@pop_root_handler H).
Proof.
  intros w. unfold pop_root_handler.
  destruct (root_handlers (env w)); reflexivity.
Qed.

Lemma keeps_trace_rmtree (p : list string) (ignore_errors : bool) :
  keeps_trace (@rmtree H p ignore_errors).
Proof.
  intros w. unfold rmtree.
  destruct (rmtree_node (fs (env w)) p); [reflexivity|].
  destruct ignore_errors; reflexivity.
Qed.

Create HintDb trace.

#[local] Hint Resolve keeps_trace_ret keeps_trace_foreign
  keeps_trace_logger_log keeps_trace_pop_root_handler keeps_trace_rmtree
  : trace.

Ltac keeps_trace_steps :=
  repeat first
    [ progress auto with trace
    | apply keeps_trace_bind; [|intros ?]
    | apply keeps_trace_try_except_else; [|intros ?|intros ?]
    | apply keeps_trace_try_finally
    | apply keeps_trace_for_each; intros ? ].

(** Entering [initialize_maya] is recorded once, and nothing it calls
    touches the record. *)
Lemma initialize_maya_trace (w : World H) :
  trace (snd (initialize_maya host w)) = trace w ++ [Call_initialize_maya].
Proof.
  unfold initialize_maya, bind at 1, mark.
  destruct (negb (_has_maya (add_event Call_initialize_maya w))).
  - reflexivity.
  - match goal with
    | |- trace (snd (?m ?w')) = _ =>
        assert (Hk : keeps_trace m); [|rewrite Hk; reflexivity]
    end.
    unfold logger_info, logger_error, logger_warning, logger_success.
    keeps_trace_steps.
Qed.

Lemma uninitialize_maya_trace (w : World H) :
  trace (snd (uninitialize_maya host w)) = trace w ++ [Call_uninitialize_maya].
Proof.
  unfold uninitialize_maya, bind at 1, mark.
  destruct (negb (_has_maya (add_event Call_uninitialize_maya w))).
  - reflexivity.
  - match goal with
    | |- trace (snd (?m ?w')) = _ =>
        assert (Hk : keeps_trace m); [|rewrite Hk; reflexivity]
    end.
    unfold logger_info, logger_error, logger_warning, logger_success.
    keeps_trace_steps.
Qed.

(** What [uninitialize_maya] does when the host is there: the shutdown
    is attempted, its outcome only picks the line that is logged, and the
    removal of the temporary directory follows with its errors ignored. *)
Lemma uninitialize_maya_present (w : World H) :
  _has_maya w = true ->
  uninitialize_maya host w =
  let w0 :=
    add_log (mkLog INFO "Uninitializing Maya Standalone" [])
      (add_event Call_uninitialize_maya w) in
  let (o, e1) := standalone_uninitialize host (env w) in
  let w1 :=
    add_log
      (match o with
       | Return _ => mkLog SUCCESS "Maya Standalone Uninitialized" []
       | Raise _ => mkLog ERROR "Failed to uninitialize Maya Standalone" []
       end)
      (set_env e1 w0) in
  (Return tt,
   match rmtree_node (fs e1) temp_maya_app_dir with
   | Return n => set_fs n w1
   | Raise _ => w1
   end).
Proof.
  intros Hm.
  unfold uninitialize_maya, bind, mark, try_finally, try_except_else,
    foreign, logger_info, logger_error, logger_success, logger_log, rmtree.
  cbn [add_event add_log _has_maya env]. rewrite Hm. cbn [negb].
  destruct (standalone_uninitialize host (env w)) as [[[]|e] e1];
    cbn [add_log set_env env fs];
    destruct (rmtree_node (fs e1) temp_maya_app_dir); reflexivity.
Qed.

(** C9: with the host present, [uninitialize_maya] never raises, whether
    the shutdown succeeded or not, and whatever the shutdown left: no
    directory is found at [temp/maya_app_dir] afterwards.  If one was
    there it is gone with everything below it and nothing else changed; if
    none was there the failed removal is ignored and the tree is as the
    shutdown left it. *)
Theorem C9_temp_dir_removed (w : World H) :
  _has_maya w = true ->
  let left_by_host := fs (snd (standalone_uninitialize host (env w))) in
  let after := uninitialize_maya host w in
  fst after = Return tt /\
  (forall d, stat (fs (env (snd after))) temp_maya_app_dir <> Found (Dir d)) /\
  match stat left_by_host temp_maya_app_dir with
  | Found (Dir _) =>
      stat (fs (env (snd after))) temp_maya_app_dir = Missing /\
      remove (fs (env (snd after))) temp_maya_app_dir
        = remove left_by_host temp_maya_app_dir
  | _ => fs (env (snd after)) = left_by_host
  end.
Proof.
  intros Hm. cbv zeta. rewrite (uninitialize_maya_present w Hm).
  destruct (standalone_uninitialize host (env w)) as [o e1].
  cbn [fst snd]. split; [reflexivity|].
  unfold rmtree_node.
  destruct (stat (fs e1) temp_maya_app_dir) as [[c|d]| |] eqn:Hs;
    cbn [set_fs set_env add_log env fs].
  - split; [|reflexivity]. intros d. rewrite Hs. discriminate.
  - pose proof (stat_remove_dir temp_maya_app_dir (fs e1) d) as Hgone.
    rewrite Hgone by (discriminate || exact Hs).
    split; [intros d'; discriminate|].
    split; [reflexivity | apply remove_idem].
  - split; [|reflexivity]. intros d. rewrite Hs. discriminate.
  - split; [|reflexivity]. intros d. rewrite Hs. discriminate.
Qed.

(** [uninitialize_maya] never raises. *)
Lemma uninitialize_maya_returns (w : World H) :
  fst (uninitialize_maya host w) = Return tt.
Proof.
  destruct (_has_maya w) eqn:Hm.
  - rewrite (uninitialize_maya_present w Hm).
    destruct (standalone_uninitialize host (env w)). reflexivity.
  - unfold uninitialize_maya, bind, mark. cbn [add_event _has_maya].
    rewrite Hm. reflexivity.
Qed.

(** C4, as the code has it: [initialize_maya] runs on entry (the body
    starts in the process it left, its call recorded).  When the body ends
    normally [uninitialize_maya] runs on exit, returns, and its call is
    recorded after the body.  When the body raises, the exception reaches
    the caller in the very process the body left: the teardown is not
    run. *)
Theorem C4_teardown_on_normal_exit_only (body : M H unit) (w w1 : World H) :
  initialize_maya host w = (Return tt, w1) ->
  let block := with_contextmanager (maya_standalone host) body w in
  trace w1 = trace w ++ [Call_initialize_maya] /\
  match body w1 with
  | (Return _, w2) =>
      block = uninitialize_maya host w2 /\
      fst block = Return tt /\
      trace (snd block) = trace w2 ++ [Call_uninitialize_maya]
  | (Raise e, w2) => block = (Raise e, w2)
  end.
Proof.
  intros Hinit. cbv zeta. split.
  - rewrite <- (initialize_maya_trace w), Hinit. reflexivity.
  - unfold with_contextmanager, bind, try_except_else.
    cbn [until_yield on_throw after_yield maya_standalone]. rewrite Hinit.
    destruct (body w1) as [[u|e] w2].
    + split; [reflexivity|].
      split; [apply uninitialize_maya_returns | apply uninitialize_maya_trace].
    + reflexivity.
Qed.

(** ** The timing wrapper *)

(** A failure of the wrapped callable passes through: same exception,
    same process, no line logged by the wrapper. *)
Lemma timed_propagates {Args T} (func : Callable H Args T) (a : Args)
    (w w1 : World H) (e : exn) :
  call func a w = (Raise e, w1) -> call (timed func) a w = (Raise e, w1).
Proof.
  intros Hc. cbn [call timed]. unfold wrap_func, bind, perf_counter.
  rewrite Hc. reflexivity.
Qed.

(** C5, for callables that have a [__name__]: [timed func] returns what
    [func] returns and leaves the process [func] left with one more line,
    at level INFO, naming the function and the time between the two clock
    readings; when [func] raises, the same exception comes out of the
    process [func] left, with no line added. *)
Theorem C5_timed_passes_through {Args T} (func : Callable H Args T)
    (name : string) (a : Args) (w : World H) :
  __name__ func = Some name ->
  match call func a w with
  | (Return v, w1) =>
      call (timed func) a w =
      (Return v,
       add_log
         (mkLog INFO "Function %s executed in %ss"
            [AStr name; AElapsed (now (env w1) - now (env w))])
         w1)
  | (Raise e, w1) => call (timed func) a w = (Raise e, w1)
  end.
Proof.
  intros Hname.
  destruct (call func a w) as [[v|e] w1] eqn:Hc.
  - cbn [call timed].
    unfold wrap_func, bind, perf_counter, getattr_name, logger_info, logger_log.
    rewrite Hc, Hname. reflexivity.
  - apply timed_propagates, Hc.
Qed.

End Properties.

(** * The properties on concrete processes *)

(** The cache was written by Maya 2022 and the host is Maya 2023. *)
Lemma C1_outdated_cache_is_wiped_witness :
  strip "2022" <> "2023" /\
  exists w',
    remove_outdated_cache calm_host (fresh (tree_with_cache (Some "2022")) true)
      = (Return tt, w') /\
    stat (fs (env w')) cache_dir
      = Found (Dir {[ ".maya_version" := File "2023" ]}) /\
    read_text_node (fs (env w')) (cache_dir ++ [".maya_version"])
      = Return "2023" /\
    remove (fs (env w')) cache_dir
      = remove (fs (env (fresh (tree_with_cache (Some "2022")) true))) cache_dir.
Proof.
  split; [vm_compute; discriminate|].
  apply (C1_outdated_cache_is_wiped calm_host
           (fresh (tree_with_cache (Some "2022")) true)
           (snd (maya_version calm_host
                   (fresh (tree_with_cache (Some "2022")) true)))
           "2023" "2022"
           {[ ".maya_version" := File "2022";
              "cmds.pyi" := File "def ls(): ..." ]}).
  - reflexivity.
  - vm_compute. reflexivity.
  - vm_compute. reflexivity.
  - vm_compute. discriminate.
Defined.

(** C2 on a cache that is current: the marker says 2023, the host is
    Maya 2023, and the call still empties the cache: the stub file that was
    in it is gone and the line about an unknown version was logged. *)
Theorem C2_current_cache_is_wiped :
  let w := fresh (tree_with_cache (Some "2023")) true in
  let after := remove_outdated_cache calm_host w in
  fst (maya_version calm_host w) = Return "2023" /\
  read_text_node (fs (env w)) (cache_dir ++ [".maya_version"]) = Return "2023" /\
  stat (fs (env w)) (cache_dir ++ ["cmds.pyi"]) = Found (File "def ls(): ...") /\
  fst after = Return tt /\
  stat (fs (env (snd after))) (cache_dir ++ ["cmds.pyi"]) = Missing /\
  log (snd after) =
    [mkLog WARNING
       "Cache from unknown Maya version found; removing existing cache" []].
Proof. vm_compute. repeat split; reflexivity. Qed.

(** C3 on a cache without a marker: the call raises instead of wiping;
    the stub file is still there and no marker was written. *)
Theorem C3_unmarked_cache_is_not_wiped :
  let w := fresh (tree_with_cache None) true in
  let after := remove_outdated_cache calm_host w in
  exists_ (fs (env w)) cache_dir = true /\
  exists_ (fs (env w)) (cache_dir ++ [".maya_version"]) = false /\
  fst after = Raise FileNotFoundError /\
  stat (fs (env (snd after))) (cache_dir ++ ["cmds.pyi"])
    = Found (File "def ls(): ...") /\
  stat (fs (env (snd after))) (cache_dir ++ [".maya_version"]) = Missing /\
  log (snd after) = [].
Proof. vm_compute. repeat split; reflexivity. Qed.

(** The body of the [with] block raises: the exception reaches the
    caller, [uninitialize_maya] was never entered, its first log line is
    missing and the temporary directory is still there. *)
Lemma C4_teardown_skipped_when_body_raises :
  let w := fresh tree_without_cache true in
  let block := with_contextmanager (maya_standalone calm_host) failing_body w in
  fst block = Raise (OtherError "ValueError") /\
  trace (snd block) = [Call_initialize_maya] /\
  count_occ Event_eq_dec (trace (snd block)) Call_uninitialize_maya = 0 /\
  log (snd block) =
    [mkLog INFO "Initializing Maya Standalone" [];
     mkLog SUCCESS "Maya Standalone Initialized" []] /\
  stat (fs (env (snd block))) temp_maya_app_dir = Found app_dir.
Proof. vm_compute. repeat split; reflexivity. Qed.

(** A body that ends normally, after an initialisation that succeeds. *)
Lemma C4_teardown_on_normal_exit_only_witness :
  let w := fresh tree_without_cache true in
  let w1 := snd (initialize_maya calm_host w) in
  let block := with_contextmanager (maya_standalone calm_host) (ret tt) w in
  initialize_maya calm_host w = (Return tt, w1) /\
  trace w1 = trace w ++ [Call_initialize_maya] /\
  block = uninitialize_maya calm_host w1 /\
  fst block = Return tt /\
  trace (snd block) = trace w1 ++ [Call_uninitialize_maya].
Proof.
  assert (Hinit :
    initialize_maya calm_host (fresh tree_without_cache true)
    = (Return tt, snd (initialize_maya calm_host (fresh tree_without_cache true))))
    by (vm_compute; reflexivity).
  split; [exact Hinit|].
  exact (C4_teardown_on_normal_exit_only calm_host (ret tt)
           (fresh tree_without_cache true) _ Hinit).
Defined.

(** A callable without [__name__] returns 7; wrapped by [timed] the call
    raises [AttributeError] instead, and logs nothing. *)
Lemma C5_nameless_callable_fails :
  let w := fresh tree_without_cache true in
  call nameless tt w = (Return 7, w) /\
  call (timed nameless) tt w = (Raise AttributeError, w).
Proof. split; reflexivity. Qed.

Lemma C5_timed_passes_through_witness :
  let w := fresh tree_without_cache true in
  call (timed seven) tt w =
  (Return 7,
   add_log
     (mkLog INFO "Function %s executed in %ss" [AStr "seven"; AElapsed 0]) w).
Proof.
  exact (C5_timed_passes_through seven "seven" tt
           (fresh tree_without_cache true) eq_refl).
Defined.

Lemma C7_no_cache_no_mutation_witness :
  let w := fresh tree_without_cache true in
  let w1 := snd (maya_version calm_host w) in
  exists_ (fs (env w)) cache_dir = false /\
  maya_version calm_host w = (Return "2023", w1) /\
  fs (env (snd (remove_outdated_cache calm_host w))) = fs (env w) /\
  exists_ (fs (env (snd (remove_outdated_cache calm_host w)))) cache_dir = false /\
  remove_outdated_cache calm_host w = (Return tt, w1).
Proof.
  assert (Hno : exists_ (fs (env (fresh tree_without_cache true))) cache_dir
                = false) by (vm_compute; reflexivity).
  pose proof (C7_no_cache_no_mutation calm_host
                (fresh tree_without_cache true) Hno) as (Hfs & Hstill & Hret).
  split; [exact Hno|]. split; [reflexivity|].
  split; [exact Hfs|]. split; [exact Hstill|].
  exact (Hret "2023" _ eq_refl).
Defined.

Lemma C8_absent_host_is_noop_witness :
  let w := fresh tree_without_cache false in
  initialize_maya calm_host w = (Return tt, add_event Call_initialize_maya w) /\
  uninitialize_maya calm_host w
    = (Return tt, add_event Call_uninitialize_maya w).
Proof.
  exact (C8_absent_host_is_noop calm_host (fresh tree_without_cache false)
           eq_refl).
Defined.

(** The shutdown fails and the temporary directory is removed all the
    same. *)
Lemma C9_temp_dir_removed_witness :
  let w := fresh tree_without_cache true in
  let after := uninitialize_maya stubborn_host w in
  stat (fs (env w)) temp_maya_app_dir = Found app_dir /\
  fst (standalone_uninitialize stubborn_host (env w))
    = Raise (OtherError "RuntimeError") /\
  fst after = Return tt /\
  stat (fs (env (snd after))) temp_maya_app_dir = Missing.
Proof.
  pose proof (C9_temp_dir_removed stubborn_host
                (fresh tree_without_cache true) eq_refl) as (Hret & _ & Hgone).
  split; [vm_compute; reflexivity|]. split; [reflexivity|].
  split; [exact Hret|].
  exact (proj1 Hgone).
Defined.

Lemma C10_unmarked_cache_raises_witness :
  let w := fresh (tree_with_cache None) true in
  let w1 := snd (maya_version calm_host w) in
  remove_outdated_cache calm_host w = (Raise FileNotFoundError, w1) /\
  fs (env (snd (remove_outdated_cache calm_host w))) = fs (env w) /\
  log (snd (remove_outdated_cache calm_host w)) = log w.
Proof.
  apply (C10_unmarked_cache_raises calm_host (fresh (tree_with_cache None) true)
           (snd (maya_version calm_host (fresh (tree_with_cache None) true)))
           "2023" {[ "cmds.pyi" := File "def ls(): ..." ]}).
  - reflexivity.
  - vm_compute. reflexivity.
  - vm_compute. reflexivity.
Defined.

(** A host that can be imported and whose version query raises: each of
    two successive calls asks it, so it is asked twice, and nothing is
    memoised in between. *)
Lemma C6_failing_query_is_repeated :
  let w := fresh tree_without_cache true in
  let first := maya_version mute_host w in
  let again := maya_version mute_host (snd first) in
  fst first = Raise AttributeError /\
  fst again = Raise AttributeError /\
  _maya_version (snd again) = None /\
  trace (snd again) = [Call_about; Call_about] /\
  count_occ Event_eq_dec (trace (snd again)) Call_about = 2.
Proof. vm_compute. repeat split; reflexivity. Qed.

(** A first call on a host that answers 2023, and three more. *)
Lemma C6_maya_version_memoises_what_it_returns_witness :
  let w := fresh tree_without_cache true in
  let w1 := set_maya_version (Some "2023") (add_event Call_about w) in
  maya_version calm_host w = (Return "2023", w1) /\
  _maya_version w1 = Some "2023" /\
  maya_version calm_host w1 = (Return "2023", w1) /\
  Nat.iter 3 (fun w' => snd (maya_version calm_host w')) w1 = w1 /\
  trace w1 = [Call_about].
Proof.
  assert (Hmv :
    maya_version calm_host (fresh tree_without_cache true) =
    (Return "2023",
     set_maya_version (Some "2023")
       (add_event Call_about (fresh tree_without_cache true))))
    by reflexivity.
  pose proof (C6_maya_version_memoises_what_it_returns calm_host _ _ "2023" 3
                Hmv) as (Hmemo & _ & Hagain & Hiter & _).
  split; [exact Hmv|]. split; [exact Hmemo|]. split; [exact Hagain|].
  split; [exact Hiter | reflexivity].
Defined.

(** * Further properties of the module *)

Section Further.
Context {H : Type} (host : Host H).

(** ** The version query and the cache *)

(** A marker that [Path.exists] does not see cannot be read. *)
Lemma remove_outdated_cache_unreadable (w w1 : World H) (v : string) :
  maya_version host w = (Return v, w1) ->
  exists_ (fs (env w)) cache_dir = true ->
  exists_ (fs (env w)) (cache_dir ++ [".maya_version"]) = false ->
  exists e,
    read_text_node (fs (env w)) (cache_dir ++ [".maya_version"]) = Raise e /\
    remove_outdated_cache host w = (Raise e, w1).
Proof.
  intros Hmv Hc Hm.
  pose proof (maya_version_env_eq host _ _ _ Hmv) as Henv.
  assert (Hread : exists e,
    read_text_node (fs (env w)) (cache_dir ++ [".maya_version"]) = Raise e).
  { unfold exists_ in Hm. unfold read_text_node.
    destruct (stat (fs (env w)) (cache_dir ++ [".maya_version"]));
      [discriminate | eexists; reflexivity | eexists; reflexivity]. }
  destruct Hread as [e He]. exists e. split; [exact He|].
  unfold remove_outdated_cache, bind, path_exists, read_text.
  rewrite Hmv, Henv, Hc. cbn [negb]. rewrite Henv, Hm. cbn [negb].
  rewrite Henv, He. reflexivity.
Qed.

(** The ways a call of [remove_outdated_cache] can go: it raises in the
    process the version query left; or there is no cache and it returns in
    that process; or something exists at the marker's path and the cache is
    wiped. *)
Lemma remove_outdated_cache_cases (w : World H) :
  (exists o w1 e,
     maya_version host w = (o, w1) /\
     remove_outdated_cache host w = (Raise e, w1)) \/
  (exists v w1,
     maya_version host w = (Return v, w1) /\
     exists_ (fs (env w)) cache_dir = false /\
     remove_outdated_cache host w = (Return tt, w1)) \/
  (exists v w1 es,
     maya_version host w = (Return v, w1) /\
     fs (env w) = Dir es /\
     remove_outdated_cache host w =
       (Return tt,
        set_fs (Dir (<[".cache" := Dir {[ ".maya_version" := File v ]}]> es))
          (add_log unknown_version_warning w1))).
Proof.
  destruct (maya_version host w) as [[v|e] w1] eqn:Hmv.
  2:{ left. exists (Raise e), w1, e. split; [reflexivity|].
      apply remove_outdated_cache_raises_early, Hmv. }
  destruct (exists_ (fs (env w)) cache_dir) eqn:Hc.
  2:{ right; left. exists v, w1. split; [reflexivity|]. split; [reflexivity|].
      apply (remove_outdated_cache_no_cache host _ _ v); assumption. }
  destruct (exists_ (fs (env w)) (cache_dir ++ [".maya_version"])) eqn:Hm.
  2:{ left.
      destruct (remove_outdated_cache_unreadable w w1 v Hmv Hc Hm)
        as (e & _ & Hrun).
      exists (Return v), w1, e. split; [reflexivity | exact Hrun]. }
  right; right. unfold exists_ in Hm.
  destruct (stat (fs (env w)) (cache_dir ++ [".maya_version"])) as [m| |] eqn:Hs;
    try discriminate.
  unfold cache_dir in Hs. cbn [app] in Hs.
  destruct (stat_found_cons _ _ _ _ Hs) as (es & n' & Hfs & Hes & Hrest).
  destruct (stat_found_cons _ _ _ _ Hrest) as (d & m' & -> & Hd & Hm').
  cbn in Hm'. injection Hm' as ->.
  assert (Hstat : stat (fs (env w)) cache_dir = Found (Dir d)).
  { rewrite Hfs. unfold cache_dir. rewrite stat_child, Hes. reflexivity. }
  destruct (marked_cache_is_wiped host w w1 v d m Hmv Hstat Hd)
    as (es' & Hfs' & Hrun).
  exists v, w1, es'. split; [reflexivity|]. split; [exact Hfs'|exact Hrun].
Qed.

(** X1: whatever the process and the tree, [remove_outdated_cache]
    touches nothing outside [.cache]: the tree without [.cache] is the
    same before and after, and so are the clock, the root logger's
    handlers and the host's own state. *)
Theorem remove_outdated_cache_frame (w : World H) :
  let after := snd (remove_outdated_cache host w) in
  remove (fs (env after)) cache_dir = remove (fs (env w)) cache_dir /\
  now (env after) = now (env w) /\
  root_handlers (env after) = root_handlers (env w) /\
  host_state (env after) = host_state (env w).
Proof.
  cbv zeta.
  destruct (remove_outdated_cache_cases w)
    as [(o & w1 & e & Hmv & ->) | [(v & w1 & Hmv & _ & ->)
        | (v & w1 & es & Hmv & Hfs & ->)]]; cbn [snd];
    pose proof (maya_version_env_eq host _ _ _ Hmv) as Henv.
  - rewrite Henv. auto.
  - rewrite Henv. auto.
  - cbn [set_fs set_env add_log env fs now root_handlers host_state].
    rewrite Henv, Hfs. unfold cache_dir. cbn [remove].
    rewrite delete_insert_eq. auto.
Qed.

(** X2: a call either leaves the tree and the log as they were, and
    then it returns normally only if there was no [.cache]; or it has
    logged the one line about an unknown version and gone on to wipe the
    cache, and then, if it returns normally, [.cache] holds the marker with
    the memoised version and nothing else.  (A wipe that fails, as
    [shutil.rmtree] does on a symbolic link, raises after that line.)  So
    the line about a version mismatch is never logged, and no call returns
    normally over an existing cache without wiping it. *)
Theorem remove_outdated_cache_all_or_nothing (w : World H) :
  let run := remove_outdated_cache host w in
  (fs (env (snd run)) = fs (env w) /\ log (snd run) = log w /\
   (fst run = Return tt -> exists_ (fs (env w)) cache_dir = false)) \/
  (log (snd run) = log w ++ [unknown_version_warning] /\
   (fst run = Return tt ->
    exists v,
      _maya_version (snd run) = Some v /\
      stat (fs (env (snd run))) cache_dir
        = Found (Dir {[ ".maya_version" := File v ]}))).
Proof.
  cbv zeta.
  destruct (remove_outdated_cache_cases w)
    as [(o & w1 & e & Hmv & ->) | [(v & w1 & Hmv & Hno & ->)
        | (v & w1 & es & Hmv & Hfs & ->)]]; cbn [fst snd].
  - left. pose proof (maya_version_log host w) as Hlog.
    rewrite Hmv in Hlog. rewrite (maya_version_env_eq host _ _ _ Hmv).
    split; [reflexivity|]. split; [exact Hlog | discriminate].
  - left. pose proof (maya_version_log host w) as Hlog.
    rewrite Hmv in Hlog. rewrite (maya_version_env_eq host _ _ _ Hmv). auto.
  - right. destruct (maya_version_returned host w w1 v Hmv)
      as (_ & _ & Hmemo & _ & Hlog).
    split; [cbn; rewrite Hlog; reflexivity|].
    intros _. exists v. split; [exact Hmemo|].
    cbn [set_fs set_env add_log env fs]. unfold cache_dir.
    rewrite stat_child, lookup_insert_eq. reflexivity.
Qed.

(** X3: when [.cache] is a regular file and the version query the call
    starts with returns, the call does not return: the marker below the
    file is not seen by [exists()], reading it fails, and that error
    (ENOTDIR where the platform tells it apart) comes out of the call, in
    the process the query left; the tree and the log are as before. *)
Theorem remove_outdated_cache_on_file (w w1 : World H) (v c : string) :
  maya_version host w = (Return v, w1) ->
  stat (fs (env w)) cache_dir = Found (File c) ->
  exists e,
    read_text_node (fs (env w)) (cache_dir ++ [".maya_version"]) = Raise e /\
    remove_outdated_cache host w = (Raise e, w1) /\
    fs (env (snd (remove_outdated_cache host w))) = fs (env w) /\
    log (snd (remove_outdated_cache host w)) = log w.
Proof.
  intros Hmv Hc.
  destruct (stat_found_cons _ _ _ _ Hc) as (es & n' & Hfs & Hes & Hn').
  cbn in Hn'. injection Hn' as ->.
  assert (Hmarker :
    stat (fs (env w)) (cache_dir ++ [".maya_version"]) = NotDir).
  { rewrite Hfs. unfold cache_dir. cbn [app].
    rewrite stat_grandchild, Hes. reflexivity. }
  destruct (remove_outdated_cache_unreadable w w1 v Hmv) as (e & He & Hrun).
  - unfold exists_. rewrite Hc. reflexivity.
  - unfold exists_. rewrite Hmarker. reflexivity.
  - exists e. split; [exact He|]. split; [exact Hrun|].
    destruct (maya_version_returned host w w1 v Hmv)
      as (_ & _ & _ & Henv & Hlog).
    rewrite Hrun. cbn [fst snd]. rewrite Henv, Hlog. auto.
Qed.

(** X4: a call that returned can be repeated: the second call returns
    too and leaves the tree exactly as the first one did. *)
Theorem remove_outdated_cache_idempotent (w : World H) :
  fst (remove_outdated_cache host w) = Return tt ->
  let once := snd (remove_outdated_cache host w) in
  fst (remove_outdated_cache host once) = Return tt /\
  fs (env (snd (remove_outdated_cache host once))) = fs (env once).
Proof.
  intros Hret. cbv zeta.
  destruct (remove_outdated_cache_cases w)
    as [(o & w1 & e & Hmv & Hrun) | [(v & w1 & Hmv & Hno & Hrun)
        | (v & w1 & es & Hmv & Hfs & Hrun)]];
    rewrite Hrun in *; cbn [fst snd] in *; [discriminate| |];
    destruct (maya_version_returned host w w1 v Hmv)
      as (_ & Hm1 & Hmemo & Henv & _).
  - rewrite (remove_outdated_cache_no_cache host w1 w1 v).
    + auto.
    + apply maya_version_memo; assumption.
    + rewrite Henv. exact Hno.
  - set (w2 := set_fs _ _).
    assert (Hmv2 : maya_version host w2 = (Return v, w2))
      by (apply maya_version_memo; assumption).
    destruct (marked_cache_is_wiped host w2 w2 v
                {[ ".maya_version" := File v ]} (File v) Hmv2)
      as (es' & Hfs' & Hrun').
    + unfold w2. cbn [set_fs set_env add_log env fs]. unfold cache_dir.
      rewrite stat_child, lookup_insert_eq. reflexivity.
    + apply lookup_singleton_eq.
    + rewrite Hrun'. cbn [fst snd]. split; [reflexivity|].
      cbn [set_fs set_env add_log env fs].
      unfold w2 in Hfs'. cbn [set_fs set_env add_log env fs] in Hfs'.
      injection Hfs' as <-. rewrite insert_insert_eq. reflexivity.
Qed.

(** X5: in a process where [maya] cannot be imported the version query
    and [remove_outdated_cache] raise [ModuleNotFoundError] and leave the
    process as it was: nothing is memoised, and a cache, stale or not, is
    kept. *)
Theorem absent_host_version_and_cache (w : World H) :
  _has_maya w = false ->
  maya_version host w = (Raise ModuleNotFoundError, w) /\
  remove_outdated_cache host w = (Raise ModuleNotFoundError, w).
Proof.
  intros Hm.
  assert (Hmv : maya_version host w = (Raise ModuleNotFoundError, w))
    by (rewrite maya_version_cases, Hm; reflexivity).
  split; [exact Hmv|].
  apply remove_outdated_cache_raises_early, Hmv.
Qed.

(** X6: once [maya_version] has returned, its answer is fixed for the
    process: whatever the environment becomes afterwards, also one in
    which the host would report another version, a later call returns the
    first answer, asks nothing and changes nothing. *)
Theorem maya_version_is_sticky (w : World H) (v : string) (later : Env H) :
  fst (maya_version host w) = Return v ->
  let w' := set_env later (snd (maya_version host w)) in
  maya_version host w' = (Return v, w').
Proof.
  intros Hv. cbv zeta.
  destruct (maya_version host w) as [o w1] eqn:Hmv. cbn in Hv. subst o.
  destruct (maya_version_returned host w w1 v Hmv) as (_ & Hm1 & Hmemo & _).
  cbn [snd]. apply maya_version_memo; assumption.
Qed.

(** X7: [remove_outdated_cache] asks the host for its version exactly
    when the version query it starts with has to: once in a process with
    the host and nothing memoised, not at all otherwise, whatever it then
    does to the cache. *)
Theorem remove_outdated_cache_queries_when_needed (w : World H) :
  trace (snd (remove_outdated_cache host w)) =
  trace w ++
  (if _has_maya w then
     match _maya_version w with
     | None => [Call_about]
     | Some _ => []
     end
   else []).
Proof.
  assert (Hq : trace (snd (maya_version host w)) =
               trace w ++
               (if _has_maya w then
                  match _maya_version w with
                  | None => [Call_about]
                  | Some _ => []
                  end
                else [])).
  { rewrite maya_version_cases.
    destruct (_has_maya w); [|cbn; rewrite app_nil_r; reflexivity].
    destruct (_maya_version w); [cbn; rewrite app_nil_r; reflexivity|].
    destruct (cmds_about_majorVersion host (env w)); reflexivity. }
  destruct (remove_outdated_cache_cases w)
    as [(o & w1 & e & Hmv & ->) | [(v & w1 & Hmv & _ & ->)
        | (v & w1 & es & Hmv & Hfs & ->)]];
    rewrite Hmv in Hq; exact Hq.
Qed.

(** ** The host runtime *)

(** X8: a runtime that fails to start is not an error of
    [initialize_maya]: with the application object built and
    [maya.standalone.initialize] raising, the call returns normally, the
    environment is as the failed start left it (no plugin was loaded, no
    handler removed) and the log gained the opening line and the line
    about the failure. *)
Theorem initialize_maya_swallows_startup_failure (w : World H)
    (e1 e2 e3 : Env H) (ex : exn) :
  _has_maya w = true ->
  QCoreApplication_setAttribute host (env w) = (Return tt, e1) ->
  QApplication host e1 = (Return tt, e2) ->
  standalone_initialize host e2 = (Raise ex, e3) ->
  let after := initialize_maya host w in
  fst after = Return tt /\
  env (snd after) = e3 /\
  log (snd after) =
    log w ++ [mkLog INFO "Initializing Maya Standalone" [];
              mkLog ERROR "Failed to initialize Maya Standalone" []].
Proof.
  intros Hm Hattr Happ Hinit. cbv zeta.
  unfold initialize_maya, bind, mark, foreign, try_except_else,
    logger_info, logger_error, logger_log.
  cbn [add_event add_log set_env _has_maya env]. rewrite Hm. cbn [negb].
  rewrite Hattr. cbn [set_env env]. rewrite Happ. cbn [set_env env].
  rewrite Hinit. cbn. rewrite <- app_assoc. auto.
Qed.

(** X9: a failure to build the application object is not caught: the
    exception leaves [initialize_maya] before the runtime is started, with
    only the opening line logged. *)
Theorem initialize_maya_toolkit_failure_propagates (w : World H)
    (e1 e2 : Env H) (ex : exn) :
  _has_maya w = true ->
  QCoreApplication_setAttribute host (env w) = (Return tt, e1) ->
  QApplication host e1 = (Raise ex, e2) ->
  let after := initialize_maya host w in
  fst after = Raise ex /\
  env (snd after) = e2 /\
  log (snd after) = log w ++ [mkLog INFO "Initializing Maya Standalone" []].
Proof.
  intros Hm Hattr Happ. cbv zeta.
  unfold initialize_maya, bind, mark, foreign, logger_info, logger_log.
  cbn [add_event add_log set_env _has_maya env]. rewrite Hm. cbn [negb].
  rewrite Hattr. cbn [set_env env]. rewrite Happ. cbn. auto.
Qed.

(** What [initialize_maya] does once the runtime has started: both
    plugins are tried in the order of [PLUGINS], each in the environment
    the previous one left, and a failure costs one warning. *)
Lemma initialize_maya_started (w : World H) (e1 e2 e3 e4 e5 : Env H)
    (o1 o2 : Outcome unit) :
  _has_maya w = true ->
  QCoreApplication_setAttribute host (env w) = (Return tt, e1) ->
  QApplication host e1 = (Return tt, e2) ->
  standalone_initialize host e2 = (Return tt, e3) ->
  cmds_loadPlugin host "invertShape.mll" e3 = (o1, e4) ->
  cmds_loadPlugin host "poseInterpolator.mll" e4 = (o2, e5) ->
  exists w5,
    env w5 = e5 /\
    log w5 = log w ++ [mkLog INFO "Initializing Maya Standalone" []]
             ++ plugin_warning "invertShape.mll" o1
             ++ plugin_warning "poseInterpolator.mll" o2 /\
    initialize_maya host w =
      (pop_root_handler ;; logger_success "Maya Standalone Initialized" []) w5.
Proof.
  intros Hm Hattr Happ Hinit Hp1 Hp2.
  unfold initialize_maya, bind at 1 2 3 4, mark, foreign, try_except_else,
    logger_info, logger_warning, logger_log.
  cbn [add_event add_log set_env _has_maya env]. rewrite Hm. cbn [negb].
  rewrite Hattr. cbn [set_env env]. rewrite Happ. cbn [set_env env].
  rewrite Hinit. cbn [set_env env PLUGINS for_each].
  unfold bind at 1 2 3. cbn [set_env env]. rewrite Hp1.
  destruct o1 as [[]|x1]; cbn [set_env env add_log ret]; rewrite Hp2;
    destruct o2 as [[]|x2]; cbn [set_env env add_log ret];
    eexists; (split; [|split; [|reflexivity]]); cbn;
    rewrite <- ?app_assoc; reflexivity.
Qed.

(** X10: loading the plugins is best effort.  With the runtime started
    and a handler on the root logger, [initialize_maya] returns normally
    whether each plugin loaded or not; it logs one warning per plugin that
    did not, removes the last handler of the root logger and no other, and
    ends with the line of success. *)
Theorem initialize_maya_plugins_best_effort (w : World H)
    (e1 e2 e3 e4 e5 : Env H) (o1 o2 : Outcome unit)
    (hs : list string) (h : string) :
  _has_maya w = true ->
  QCoreApplication_setAttribute host (env w) = (Return tt, e1) ->
  QApplication host e1 = (Return tt, e2) ->
  standalone_initialize host e2 = (Return tt, e3) ->
  cmds_loadPlugin host "invertShape.mll" e3 = (o1, e4) ->
  cmds_loadPlugin host "poseInterpolator.mll" e4 = (o2, e5) ->
  root_handlers e5 = hs ++ [h] ->
  let after := initialize_maya host w in
  fst after = Return tt /\
  env (snd after) = mkEnv (fs e5) (now e5) hs (host_state e5) /\
  log (snd after) =
    log w ++ [mkLog INFO "Initializing Maya Standalone" []]
    ++ plugin_warning "invertShape.mll" o1
    ++ plugin_warning "poseInterpolator.mll" o2
    ++ [mkLog SUCCESS "Maya Standalone Initialized" []].
Proof.
  intros Hm Hattr Happ Hinit Hp1 Hp2 Hhs. cbv zeta.
  destruct (initialize_maya_started w e1 e2 e3 e4 e5 o1 o2
              Hm Hattr Happ Hinit Hp1 Hp2) as (w5 & Henv & Hlog & ->).
  unfold bind, pop_root_handler, logger_success, logger_log.
  rewrite Henv, Hhs.
  destruct (hs ++ [h]) as [|h0 tl] eqn:Hne;
    [destruct hs; discriminate|].
  rewrite <- Hne, removelast_last.
  cbn [fst snd add_log set_root_handlers set_env env log fs now host_state].
  rewrite Henv, Hlog, <- !app_assoc. auto.
Qed.

(** X11: [initialize_maya] fails after a successful start when the root
    logger has no handler to remove: [IndexError] comes out of
    [handlers.pop()], the runtime stays started and the line of success is
    not logged. *)
Theorem initialize_maya_without_root_handler (w : World H)
    (e1 e2 e3 e4 e5 : Env H) (o1 o2 : Outcome unit) :
  _has_maya w = true ->
  QCoreApplication_setAttribute host (env w) = (Return tt, e1) ->
  QApplication host e1 = (Return tt, e2) ->
  standalone_initialize host e2 = (Return tt, e3) ->
  cmds_loadPlugin host "invertShape.mll" e3 = (o1, e4) ->
  cmds_loadPlugin host "poseInterpolator.mll" e4 = (o2, e5) ->
  root_handlers e5 = [] ->
  let after := initialize_maya host w in
  fst after = Raise IndexError /\
  env (snd after) = e5 /\
  log (snd after) =
    log w ++ [mkLog INFO "Initializing Maya Standalone" []]
    ++ plugin_warning "invertShape.mll" o1
    ++ plugin_warning "poseInterpolator.mll" o2.
Proof.
  intros Hm Hattr Happ Hinit Hp1 Hp2 Hhs. cbv zeta.
  destruct (initialize_maya_started w e1 e2 e3 e4 e5 o1 o2
              Hm Hattr Happ Hinit Hp1 Hp2) as (w5 & Henv & Hlog & ->).
  unfold bind, pop_root_handler. rewrite Henv, Hhs.
  cbn [fst snd]. auto.
Qed.

(** X12: with the host present [uninitialize_maya] reports the shutdown
    truthfully and once: after the opening line comes the line of success
    exactly when [maya.standalone.uninitialize] returned and the line of
    failure exactly when it raised; the memoised version and the root
    logger's handlers are not touched by the function itself. *)
Theorem uninitialize_maya_reports_shutdown (w : World H) :
  _has_maya w = true ->
  let shutdown := standalone_uninitialize host (env w) in
  let after := snd (uninitialize_maya host w) in
  log after =
    log w ++ [mkLog INFO "Uninitializing Maya Standalone" [];
              match fst shutdown with
              | Return _ => mkLog SUCCESS "Maya Standalone Uninitialized" []
              | Raise _ =>
                  mkLog ERROR "Failed to uninitialize Maya Standalone" []
              end] /\
  _maya_version after = _maya_version w /\
  root_handlers (env after) = root_handlers (snd shutdown) /\
  host_state (env after) = host_state (snd shutdown).
Proof.
  intros Hm. cbv zeta. rewrite (uninitialize_maya_present host w Hm).
  destruct (standalone_uninitialize host (env w)) as [o e1].
  cbn [fst snd].
  destruct (rmtree_node (fs e1) temp_maya_app_dir);
    cbn [set_fs set_env add_log add_event env log _maya_version
         root_handlers host_state];
    rewrite <- app_assoc; auto.
Qed.

(** ** The timing wrapper *)

(** X13: for a callable without [__name__] the wrapper never returns:
    whenever the callable itself returns, the call of [timed func] raises
    [AttributeError] in the process the callable left, so its effects have
    taken place, its result is lost and no line is logged. *)
Theorem timed_nameless_loses_result {Args T} (func : Callable H Args T)
    (a : Args) (w w1 : World H) (v : T) :
  __name__ func = None ->
  call func a w = (Return v, w1) ->
  call (timed func) a w = (Raise AttributeError, w1).
Proof.
  intros Hname Hc. cbn [call timed].
  unfold wrap_func, bind, perf_counter, getattr_name.
  rewrite Hc, Hname. reflexivity.
Qed.

Lemma timed_returns {Args T} (func : Callable H Args T) (name : string)
    (a : Args) (w w1 : World H) (v : T) :
  __name__ func = Some name ->
  call func a w = (Return v, w1) ->
  call (timed func) a w =
  (Return v, add_log (timing_line name (now (env w1) - now (env w))) w1).
Proof.
  intros Hname Hc. cbn [call timed].
  unfold wrap_func, bind, perf_counter, getattr_name, logger_info, logger_log.
  rewrite Hc, Hname. reflexivity.
Qed.

(** X14: the wrapper does not take over the name of what it wraps.
    Wrapping twice still returns the value of the callable, and logs two
    lines after it: the inner one under the callable's name, the outer one
    under the name [wrap_func]; a failure of the callable passes through
    both wrappers with no line. *)
Theorem timed_twice {Args T} (func : Callable H Args T) (name : string)
    (a : Args) (w : World H) :
  __name__ func = Some name ->
  match call func a w with
  | (Return v, w1) =>
      exists dt1 dt2,
        call (timed (timed func)) a w =
        (Return v,
         add_log (timing_line "wrap_func" dt2)
           (add_log (timing_line name dt1) w1))
  | (Raise e, w1) => call (timed (timed func)) a w = (Raise e, w1)
  end.
Proof.
  intros Hname.
  destruct (call func a w) as [[v|e] w1] eqn:Hc.
  - eexists _, _.
    apply (timed_returns (timed func) "wrap_func"); [reflexivity|].
    apply (timed_returns func name); assumption.
  - apply timed_propagates, timed_propagates, Hc.
Qed.

(** ** The scoped helper without a host *)

Lemma initialize_maya_absent (w : World H) :
  _has_maya w = false ->
  initialize_maya host w = (Return tt, add_event Call_initialize_maya w).
Proof.
  intros Hm. unfold initialize_maya, bind, mark.
  cbn [add_event _has_maya]. rewrite Hm. reflexivity.
Qed.

Lemma uninitialize_maya_absent (w : World H) :
  _has_maya w = false ->
  uninitialize_maya host w = (Return tt, add_event Call_uninitialize_maya w).
Proof.
  intros Hm. unfold uninitialize_maya, bind, mark.
  cbn [add_event _has_maya]. rewrite Hm. reflexivity.
Qed.

(** X15: in a process without the host the [with] block adds nothing to
    its body.  For a body that does not make the host appear, the block
    ends as the body ends, with the environment, the log and the memoised
    version the body left. *)
Theorem maya_standalone_transparent_without_host (body : M H unit)
    (w : World H) :
  _has_maya w = false ->
  let inner := body (add_event Call_initialize_maya w) in
  _has_maya (snd inner) = false ->
  let block := with_contextmanager (maya_standalone host) body w in
  fst block = fst inner /\
  env (snd block) = env (snd inner) /\
  log (snd block) = log (snd inner) /\
  _maya_version (snd block) = _maya_version (snd inner).
Proof.
  intros Hm. cbv zeta. intros Hstill.
  unfold with_contextmanager, bind, try_except_else.
  cbn [until_yield on_throw after_yield maya_standalone].
  rewrite (initialize_maya_absent w Hm).
  destruct (body (add_event Call_initialize_maya w)) as [[[]|e] w2].
  - cbn [snd] in Hstill. rewrite (uninitialize_maya_absent w2 Hstill).
    cbn. auto.
  - cbn. auto.
Qed.

End Further.

(** * The further properties on concrete processes *)

(** A regular file named [.cache]. *)
Lemma remove_outdated_cache_on_file_witness :
  let w := fresh tree_with_cache_file true in
  let w1 := snd (maya_version calm_host w) in
  exists e,
    read_text_node (fs (env w)) (cache_dir ++ [".maya_version"]) = Raise e /\
    remove_outdated_cache calm_host w = (Raise e, w1) /\
    fs (env (snd (remove_outdated_cache calm_host w))) = fs (env w) /\
    log (snd (remove_outdated_cache calm_host w)) = log w.
Proof.
  apply (remove_outdated_cache_on_file calm_host
           (fresh tree_with_cache_file true)
           (snd (maya_version calm_host (fresh tree_with_cache_file true)))
           "2023" "not a directory").
  - reflexivity.
  - vm_compute. reflexivity.
Defined.

(** A cache from Maya 2022 under Maya 2023, wiped twice. *)
Lemma remove_outdated_cache_idempotent_witness :
  let w := fresh (tree_with_cache (Some "2022")) true in
  let once := snd (remove_outdated_cache calm_host w) in
  fst (remove_outdated_cache calm_host w) = Return tt /\
  fst (remove_outdated_cache calm_host once) = Return tt /\
  fs (env (snd (remove_outdated_cache calm_host once))) = fs (env once).
Proof.
  assert (Hret :
    fst (remove_outdated_cache calm_host
           (fresh (tree_with_cache (Some "2022")) true)) = Return tt)
    by (vm_compute; reflexivity).
  split; [exact Hret|].
  exact (remove_outdated_cache_idempotent calm_host
           (fresh (tree_with_cache (Some "2022")) true) Hret).
Defined.

Lemma absent_host_version_and_cache_witness :
  let w := fresh (tree_with_cache (Some "2022")) false in
  maya_version calm_host w = (Raise ModuleNotFoundError, w) /\
  remove_outdated_cache calm_host w = (Raise ModuleNotFoundError, w).
Proof.
  exact (absent_host_version_and_cache calm_host
           (fresh (tree_with_cache (Some "2022")) false) eq_refl).
Defined.

(** The host is upgraded from 2023 to 2024 after the first query; the
    process keeps answering 2023. *)
Lemma maya_version_is_sticky_witness :
  let w := fresh_on "2023" tree_without_cache in
  let later := mkEnv tree_without_cache 5 ["maya"] "2024" in
  let w' := set_env later (snd (maya_version reporting_host w)) in
  cmds_about_majorVersion reporting_host later = Return "2024" /\
  maya_version reporting_host w' = (Return "2023", w').
Proof.
  split; [reflexivity|].
  exact (maya_version_is_sticky reporting_host
           (fresh_on "2023" tree_without_cache) "2023"
           (mkEnv tree_without_cache 5 ["maya"] "2024") eq_refl).
Defined.

Lemma initialize_maya_swallows_startup_failure_witness :
  let w := fresh tree_without_cache true in
  let after := initialize_maya unstartable_host w in
  fst after = Return tt /\
  env (snd after) = env w /\
  log (snd after) =
    log w ++ [mkLog INFO "Initializing Maya Standalone" [];
              mkLog ERROR "Failed to initialize Maya Standalone" []].
Proof.
  exact (initialize_maya_swallows_startup_failure unstartable_host
           (fresh tree_without_cache true) _ _ _ (OtherError "RuntimeError")
           eq_refl eq_refl eq_refl eq_refl).
Defined.

Lemma initialize_maya_toolkit_failure_propagates_witness :
  let w := fresh tree_without_cache true in
  let after := initialize_maya headless_host w in
  fst after = Raise (OtherError "RuntimeError") /\
  env (snd after) = env w /\
  log (snd after) = log w ++ [mkLog INFO "Initializing Maya Standalone" []].
Proof.
  exact (initialize_maya_toolkit_failure_propagates headless_host
           (fresh tree_without_cache true) _ _ (OtherError "RuntimeError")
           eq_refl eq_refl eq_refl).
Defined.

(** The second plugin is missing: one warning, and the call succeeds. *)
Lemma initialize_maya_plugins_best_effort_witness :
  let w := fresh tree_without_cache true in
  let after := initialize_maya picky_host w in
  fst after = Return tt /\
  env (snd after) = mkEnv tree_without_cache 0 [] tt /\
  log (snd after) =
    [mkLog INFO "Initializing Maya Standalone" [];
     mkLog WARNING "Couldn't load %s" [AStr "poseInterpolator.mll"];
     mkLog SUCCESS "Maya Standalone Initialized" []].
Proof.
  exact (initialize_maya_plugins_best_effort picky_host
           (fresh tree_without_cache true) _ _ _ _ _
           (Return tt) (Raise (OtherError "RuntimeError")) [] "maya"
           eq_refl eq_refl eq_refl eq_refl eq_refl eq_refl eq_refl).
Defined.

Lemma initialize_maya_without_root_handler_witness :
  let w := handlerless tree_without_cache in
  let after := initialize_maya calm_host w in
  fst after = Raise IndexError /\
  env (snd after) = env w /\
  log (snd after) = [mkLog INFO "Initializing Maya Standalone" []].
Proof.
  exact (initialize_maya_without_root_handler calm_host
           (handlerless tree_without_cache) _ _ _ _ _ (Return tt) (Return tt)
           eq_refl eq_refl eq_refl eq_refl eq_refl eq_refl eq_refl).
Defined.

Lemma uninitialize_maya_reports_shutdown_witness :
  let w := fresh tree_without_cache true in
  log (snd (uninitialize_maya stubborn_host w)) =
    [mkLog INFO "Uninitializing Maya Standalone" [];
     mkLog ERROR "Failed to uninitialize Maya Standalone" []] /\
  log (snd (uninitialize_maya calm_host w)) =
    [mkLog INFO "Uninitializing Maya Standalone" [];
     mkLog SUCCESS "Maya Standalone Uninitialized" []].
Proof.
  split.
  - exact (proj1 (uninitialize_maya_reports_shutdown stubborn_host
                    (fresh tree_without_cache true) eq_refl)).
  - exact (proj1 (uninitialize_maya_reports_shutdown calm_host
                    (fresh tree_without_cache true) eq_refl)).
Defined.

Lemma timed_nameless_loses_result_witness :
  let w := fresh tree_without_cache true in
  call (timed nameless) tt w = (Raise AttributeError, w).
Proof.
  exact (timed_nameless_loses_result nameless tt
           (fresh tree_without_cache true) (fresh tree_without_cache true) 7
           eq_refl eq_refl).
Defined.

Lemma timed_twice_witness :
  let w := fresh tree_without_cache true in
  exists dt1 dt2,
    call (timed (timed seven)) tt w =
    (Return 7,
     add_log (timing_line "wrap_func" dt2)
       (add_log (timing_line "seven" dt1) w)).
Proof.
  exact (timed_twice seven "seven" tt (fresh tree_without_cache true) eq_refl).
Defined.

(** Without the host, a block whose body writes a file ends as the body
    alone would. *)
Lemma maya_standalone_transparent_without_host_witness :
  let w := fresh tree_without_cache false in
  let block :=
    with_contextmanager (maya_standalone calm_host) writing_body w in
  fst block = Return tt /\
  stat (fs (env (snd block))) ["cmds.pyi"] = Found (File "def ls(): ...") /\
  log (snd block) = [].
Proof.
  pose proof (maya_standalone_transparent_without_host calm_host writing_body
                (fresh tree_without_cache false) eq_refl eq_refl)
    as (Hret & Henv & Hlog & _).
  split; [exact Hret|]. split; [|exact Hlog].
  rewrite Henv. vm_compute. reflexivity.
Defined.
